(** * mt-sdk: the webhook signature check and the POST /query route

    A shallow embedding of [src/index.ts]: [createSignature],
    [verifySignature] and the [/query] route installed by
    [MTAgent.setupRoutes], together with the parts of the Node runtime they
    rest on (HMAC-SHA256, [Buffer.from], [crypto.timingSafeEqual],
    [JSON.stringify], the [||] operator and property reads); then the
    defaults of the [MTAgent] constructor and the [MarketplaceClient], from
    the ['end'] listener of [request] to the five methods built on it.

    Conventions.
    - A JavaScript string is represented by the [string] of its UTF-8 bytes,
      so [Buffer.from(s)] is the list of the characters' codes and
      [.update(s)] hashes that same list.
    - A byte and a 32-bit word are values of [Z]; the wrap-around of word
      arithmetic is written out with [mod 2^32].
    - An exception is a value of [Exn]; code that can throw returns a
      [Result]. *)

From Stdlib Require Import ZArith List String Ascii Bool Lia DecimalString.
Import ListNotations.
Local Open Scope string_scope.
Local Open Scope list_scope.
Local Open Scope Z_scope.

(* ================================================================== *)
(** ** Results and exceptions *)

Inductive Exn : Type :=
| RangeError (message : string)
| TypeError (message : string).

Inductive Result (A : Type) : Type :=
| Returns (a : A)
| Throws (e : Exn).
Arguments Returns {A} a.
Arguments Throws {A} e.

Definition bind {A B : Type} (r : Result A) (k : A -> Result B) : Result B :=
  match r with
  | Returns a => k a
  | Throws e => Throws e
  end.

Notation "'let!' x ':=' r 'in' k" := (bind r (fun x => k))
  (at level 10, x name, r at level 100, k at level 200).

(* ================================================================== *)
(** ** Buffers *)

Definition Buffer : Type := list Z.

Definition byte_of_ascii (c : ascii) : Z := Z.of_N (N_of_ascii c).

(** [Buffer.from(s)]: the UTF-8 bytes of [s]. *)
Definition Buffer_from (s : string) : Buffer :=
  map byte_of_ascii (list_ascii_of_string s).

Fixpoint buffer_eqb (a b : Buffer) : bool :=
  match a, b with
  | [], [] => true
  | x :: a', y :: b' => Z.eqb x y && buffer_eqb a' b'
  | _, _ => false
  end.

(** [crypto.timingSafeEqual(a, b)]: Node raises a [RangeError] when the two
    buffers differ in byte length, and otherwise tells whether all bytes
    agree.  (Its running time is not modelled.) *)
Definition timingSafeEqual (a b : Buffer) : Result bool :=
  if Nat.eqb (List.length a) (List.length b)
  then Returns (buffer_eqb a b)
  else Throws (RangeError "Input buffers must have the same byte length").

(* ================================================================== *)
(** ** SHA-256 (FIPS 180-4) on 32-bit words held in [Z] *)

Module SHA256.

Definition w32 (x : Z) : Z := x mod 2 ^ 32.
Definition add32 (a b : Z) : Z := w32 (a + b).
Definition not32 (x : Z) : Z := Z.lxor x 0xffffffff.
Definition rotr (n x : Z) : Z :=
  Z.lor (Z.shiftr x n) (w32 (Z.shiftl x (32 - n))).

Definition Ch (x y z : Z) : Z := Z.lxor (Z.land x y) (Z.land (not32 x) z).
Definition Maj (x y z : Z) : Z :=
  Z.lxor (Z.lxor (Z.land x y) (Z.land x z)) (Z.land y z).
Definition Sigma0 (x : Z) : Z := Z.lxor (Z.lxor (rotr 2 x) (rotr 13 x)) (rotr 22 x).
Definition Sigma1 (x : Z) : Z := Z.lxor (Z.lxor (rotr 6 x) (rotr 11 x)) (rotr 25 x).
Definition sigma0 (x : Z) : Z := Z.lxor (Z.lxor (rotr 7 x) (rotr 18 x)) (Z.shiftr x 3).
Definition sigma1 (x : Z) : Z := Z.lxor (Z.lxor (rotr 17 x) (rotr 19 x)) (Z.shiftr x 10).

(** The constants are defined as FIPS 180-4 defines them: the first 32
    bits of the fractional parts of the cube roots (for [K]) and of the
    square roots (for [H0]) of the first primes. *)
Definition is_prime (n : nat) : bool :=
  forallb (fun d => negb (Nat.eqb (Nat.modulo n d) 0)) (seq 2 (n - 2)).

Definition primes64 : list Z := map Z.of_nat (filter is_prime (seq 2 310)).

Fixpoint cbrt_bits (bits : nat) (n r : Z) : Z :=
  match bits with
  | O => r
  | S b =>
      let c := r + 2 ^ Z.of_nat b in
      cbrt_bits b n (if c * c * c <=? n then c else r)
  end.

Definition frac_cbrt32 (p : Z) : Z := w32 (cbrt_bits 48 (p * 2 ^ 96) 0).
Definition frac_sqrt32 (p : Z) : Z := w32 (Z.sqrt (p * 2 ^ 64)).

Definition K : list Z := Eval vm_compute in map frac_cbrt32 primes64.

(** The eight working variables a..h, also the chaining value. *)
Record State : Type := mkState {
  sa : Z; sb : Z; sc : Z; sd : Z; se : Z; sf : Z; sg : Z; sh : Z
}.

Definition H0 : State :=
  Eval vm_compute in
    let h := map frac_sqrt32 (firstn 8 primes64) in
    mkState (nth 0 h 0) (nth 1 h 0) (nth 2 h 0) (nth 3 h 0)
            (nth 4 h 0) (nth 5 h 0) (nth 6 h 0) (nth 7 h 0).

Definition round (s : State) (k w : Z) : State :=
  let t1 := add32 (add32 (add32 (add32 (sh s) (Sigma1 (se s)))
                                (Ch (se s) (sf s) (sg s))) k) w in
  let t2 := add32 (Sigma0 (sa s)) (Maj (sa s) (sb s) (sc s)) in
  mkState (add32 t1 t2) (sa s) (sb s) (sc s) (add32 (sd s) t1) (se s) (sf s) (sg s).

(** The message schedule is kept as a sliding window of the last sixteen
    words: its head is W[t], and the word pushed behind it is W[t+16]. *)
Definition next_word (win : list Z) : Z :=
  add32 (add32 (add32 (sigma1 (nth 14 win 0)) (nth 9 win 0))
               (sigma0 (nth 1 win 0))) (nth 0 win 0).

Fixpoint rounds (ks : list Z) (win : list Z) (s : State) : State :=
  match ks with
  | [] => s
  | k :: ks' =>
      rounds ks' (tl win ++ [next_word win]) (round s k (nth 0 win 0))
  end.

Definition add_state (s t : State) : State :=
  mkState (add32 (sa s) (sa t)) (add32 (sb s) (sb t)) (add32 (sc s) (sc t))
          (add32 (sd s) (sd t)) (add32 (se s) (se t)) (add32 (sf s) (sf t))
          (add32 (sg s) (sg t)) (add32 (sh s) (sh t)).

(** Big-endian packing of bytes into words and back. *)
Fixpoint words_of_bytes (n : nat) (bs : list Z) : list Z :=
  match n with
  | O => []
  | S n' =>
      (nth 0 bs 0 * 16777216 + nth 1 bs 0 * 65536 + nth 2 bs 0 * 256 + nth 3 bs 0)
      :: words_of_bytes n' (skipn 4 bs)
  end.

Definition bytes_of_word (w : Z) : list Z :=
  [ Z.shiftr w 24 mod 256; Z.shiftr w 16 mod 256; Z.shiftr w 8 mod 256; w mod 256 ].

Definition compress (s : State) (block : list Z) : State :=
  add_state s (rounds K (words_of_bytes 16 block) s).

Fixpoint be_bytes (n : nat) (x : Z) : list Z :=
  match n with
  | O => []
  | S n' => be_bytes n' (Z.shiftr x 8) ++ [x mod 256]
  end.

(** Padding: a 1 bit, zero bits up to 56 mod 64 bytes, the bit length on
    eight bytes. *)
Definition pad (msg : list Z) : list Z :=
  let len := Z.of_nat (List.length msg) in
  msg ++ [0x80] ++ repeat 0 (Z.to_nat ((55 - len) mod 64)) ++ be_bytes 8 (8 * len).

Fixpoint blocks (n : nat) (bs : list Z) (s : State) : State :=
  match n with
  | O => s
  | S n' => blocks n' (skipn 64 bs) (compress s (firstn 64 bs))
  end.

Definition digest_bytes (s : State) : list Z :=
  bytes_of_word (sa s) ++ bytes_of_word (sb s) ++ bytes_of_word (sc s) ++
  bytes_of_word (sd s) ++ bytes_of_word (se s) ++ bytes_of_word (sf s) ++
  bytes_of_word (sg s) ++ bytes_of_word (sh s).

Definition sha256 (msg : list Z) : list Z :=
  let p := pad msg in
  digest_bytes (blocks (Nat.div (List.length p) 64) p H0).

(** HMAC (RFC 2104) with SHA-256: block size 64 bytes. *)
Definition hmac_key (key : list Z) : list Z :=
  let k := if Nat.ltb 64 (List.length key) then sha256 key else key in
  k ++ repeat 0 (64 - List.length k)%nat.

Definition hmac (key msg : list Z) : list Z :=
  let k := hmac_key key in
  sha256 (map (Z.lxor 0x5c) k ++ sha256 (map (Z.lxor 0x36) k ++ msg)).

End SHA256.

(* ================================================================== *)
(** ** Hexadecimal *)

Definition hex_digit (n : Z) : ascii :=
  if n <? 10 then ascii_of_N (Z.to_N (48 + n)) else ascii_of_N (Z.to_N (87 + n)).

(** [.digest('hex')]: two lowercase digits per byte. *)
Fixpoint hex_encode (bs : list Z) : string :=
  match bs with
  | [] => EmptyString
  | b :: bs' => String (hex_digit (b / 16)) (String (hex_digit (b mod 16)) (hex_encode bs'))
  end.

(* ================================================================== *)
(** ** SIGNATURE VERIFICATION *)

(** [crypto.createHmac('sha256', secret).update(payload).digest('hex')] *)
Definition hmac_sha256_hex (secret payload : string) : string :=
  hex_encode (SHA256.hmac (Buffer_from secret) (Buffer_from payload)).

Definition createSignature (payload secret : string) : string :=
  hmac_sha256_hex secret payload.

Definition verifySignature (payload signature secret : string) : Result bool :=
  let expectedSignature := hmac_sha256_hex secret payload in
  timingSafeEqual (Buffer_from signature) (Buffer_from expectedSignature).

(* ================================================================== *)
(** ** JavaScript values

    The values that reach the route: what [JSON.parse] builds, plus
    [undefined].  Numbers are the integers JavaScript holds exactly (below
    2^53 in magnitude; fractions are left out); an object is the list of its
    own properties in enumeration order, with distinct keys. *)

#[local] Set Warnings "-register-all".
Inductive JsVal : Type :=
| JUndefined
| JNull
| JBool (b : bool)
| JNum (n : Z)
| JStr (s : string)
| JArr (items : list JsVal)
| JObj (props : list (string * JsVal)).

(** ToBoolean *)
Definition truthy (v : JsVal) : bool :=
  match v with
  | JUndefined | JNull => false
  | JBool b => b
  | JNum n => negb (n =? 0)
  | JStr s => negb (String.eqb s EmptyString)
  | JArr _ | JObj _ => true
  end.

(** [a || b] *)
Definition js_or (a b : JsVal) : JsVal := if truthy a then a else b.

Fixpoint lookup (k : string) (props : list (string * JsVal)) : JsVal :=
  match props with
  | [] => JUndefined
  | (k', v) :: rest => if String.eqb k k' then v else lookup k rest
  end.

(** [v.k] for a [v] that is neither [null] nor [undefined], and a name [k]
    that no prototype defines (all the names the route reads are such). *)
Definition get_prop (v : JsVal) (k : string) : JsVal :=
  match v with
  | JObj props => lookup k props
  | _ => JUndefined
  end.

(** [v.k] for any [v]: reading a property of [null] or [undefined] throws. *)
Definition read_prop (v : JsVal) (k : string) : Result JsVal :=
  match v with
  | JUndefined =>
      Throws (TypeError ("Cannot read properties of undefined (reading '" ++ k ++ "')")%string)
  | JNull =>
      Throws (TypeError ("Cannot read properties of null (reading '" ++ k ++ "')")%string)
  | _ => Returns (get_prop v k)
  end.

(* ================================================================== *)
(** ** JSON.stringify *)

Definition dquote : string := String (ascii_of_nat 34) EmptyString.

Definition hex4 (n : Z) : string :=
  String (hex_digit (n / 4096 mod 16)) (String (hex_digit (n / 256 mod 16))
    (String (hex_digit (n / 16 mod 16)) (String (hex_digit (n mod 16)) EmptyString))).

(** QuoteJSONString, one character at a time. *)
Definition escape_char (c : ascii) : string :=
  let n := byte_of_ascii c in
  if n =? 34 then ("\" ++ dquote)%string
  else if n =? 92 then "\\"
  else if n =? 8 then "\b"
  else if n =? 12 then "\f"
  else if n =? 10 then "\n"
  else if n =? 13 then "\r"
  else if n =? 9 then "\t"
  else if n <? 32 then ("\u" ++ hex4 n)%string
  else String c EmptyString.

Fixpoint escape (s : string) : string :=
  match s with
  | EmptyString => EmptyString
  | String c s' => (escape_char c ++ escape s')%string
  end.

Definition quote (s : string) : string := (dquote ++ escape s ++ dquote)%string.

Definition string_of_Z (n : Z) : string := NilZero.string_of_int (Z.to_int n).

Fixpoint join (sep : string) (l : list string) : string :=
  match l with
  | [] => EmptyString
  | [x] => x
  | x :: rest => (x ++ sep ++ join sep rest)%string
  end.

(** SerializeJSONProperty.  An [undefined] array element is written
    [null]; a property whose value is [undefined] is left out. *)
Fixpoint serialize (v : JsVal) : string :=
  match v with
  | JUndefined | JNull => "null"
  | JBool b => if b then "true" else "false"
  | JNum n => string_of_Z n
  | JStr s => quote s
  | JArr items => ("[" ++ join "," (map serialize items) ++ "]")%string
  | JObj props =>
      ("{" ++ join "," (flat_map (fun kv => match snd kv with
                                          | JUndefined => []
                                          | _ => [(quote (fst kv) ++ ":" ++ serialize (snd kv))%string]
                                          end) props) ++ "}")%string
  end.

(** [JSON.stringify(v)]; [None] stands for the result [undefined]. *)
Definition JSON_stringify (v : JsVal) : option string :=
  match v with
  | JUndefined => None
  | _ => Some (serialize v)
  end.

(* ================================================================== *)
(** ** TYPES *)

(** [IncomingQuery].  The fields are filled from [req.body], which is
    [any]: at run time each holds whatever value the body carried. *)
Record IncomingQuery : Type := mkQuery {
  queryId : JsVal;
  text : JsVal;
  capabilities : JsVal;
  metadata : JsVal;
  timestamp : JsVal
}.

(** [QueryResponse]: [metadata] and [cost] are optional. *)
Record QueryResponse : Type := mkResponse {
  response : string;
  response_metadata : option JsVal;
  cost : option Z
}.

(** What [await this.queryHandler(query)] yields: the promise resolves
    with a response, or rejects with (the handler throws) any value. *)
Inductive HandlerResult : Type :=
| Resolves (r : QueryResponse)
| Rejects (error : JsVal).

Definition QueryHandler : Type := IncomingQuery -> HandlerResult.

(* ================================================================== *)
(** ** MT AGENT: the POST /query route *)

(** [req.body] as [express.json()] leaves it: the parsed JSON text, which
    in strict mode is an object or an array, and the empty object when
    nothing was parsed. *)
Inductive Body : Type :=
| BObject (props : list (string * JsVal))
| BArray (items : list JsVal).

Definition body_value (b : Body) : JsVal :=
  match b with
  | BObject props => JObj props
  | BArray items => JArr items
  end.

(** A request: the bytes received, the body parsed from them, and the
    value of the [x-mt-signature] header when the request carries it. *)
Record Request : Type := mkRequest {
  rawBody : string;
  body : Body;
  x_mt_signature : option string
}.

(** What the route reads from its surroundings: the two readings of
    [Date.now()], and the values [crypto.randomUUID()] and
    [new Date().toISOString()] give when asked. *)
Record Env : Type := mkEnv {
  Date_now_start : Z;
  Date_now_end : Z;
  crypto_randomUUID : string;
  Date_toISOString : string
}.

(** Calls the route makes, in order. *)
Inductive Event : Type :=
| VerifyCall (payload signature secret : string)
| HandlerCall (query : IncomingQuery).

(** How the route callback ends: a response was sent ([res.json] alone
    answers 200), or an exception left the callback with nothing sent. *)
Inductive Outcome : Type :=
| Responded (status : Z) (json : list (string * JsVal))
| Unhandled (e : Exn).

Definition build_query (env : Env) (b : JsVal) : IncomingQuery :=
  {| queryId := js_or (js_or (get_prop b "query_id") (get_prop b "queryId"))
                      (JStr (crypto_randomUUID env));
     text := js_or (js_or (js_or (get_prop b "query") (get_prop b "text"))
                          (get_prop b "prompt"))
                   (JStr EmptyString);
     capabilities := js_or (js_or (get_prop b "capabilities")
                                  (get_prop b "capabilities_needed"))
                           (JArr []);
     metadata := js_or (get_prop b "metadata") (JObj []);
     timestamp := js_or (get_prop b "timestamp") (JStr (Date_toISOString env)) |}.

Definition opt_value (o : option JsVal) : JsVal :=
  match o with
  | Some v => v
  | None => JUndefined
  end.

(** The agent's state, as far as the route reads it: the webhook secret of
    its configuration and the handler slot, empty until [onQuery]. *)
Record MTAgent : Type := mkAgent {
  webhookSecret : string;
  queryHandler : option QueryHandler
}.

Definition new_MTAgent (secret : string) : MTAgent :=
  {| webhookSecret := secret; queryHandler := None |}.

Definition onQuery (handler : QueryHandler) (agent : MTAgent) : MTAgent :=
  {| webhookSecret := webhookSecret agent; queryHandler := Some handler |}.

(** The route from the handler test on. *)
Definition dispatch (agent : MTAgent) (env : Env) (req : Request)
  : list Event * Outcome :=
  match queryHandler agent with
  | None => ([], Responded 500 [("error", JStr "No query handler registered")])
  | Some handler =>
      let query := build_query env (body_value (body req)) in
      match handler query with
      | Resolves r =>
          let duration := Date_now_end env - Date_now_start env in
          ([HandlerCall query],
           Responded 200 [("success", JBool true);
                          ("response", JStr (response r));
                          ("metadata", opt_value (response_metadata r));
                          ("duration_ms", JNum duration)])
      | Rejects error =>
          let duration := Date_now_end env - Date_now_start env in
          match read_prop error "message" with
          | Returns message =>
              ([HandlerCall query],
               Responded 500 [("success", JBool false);
                              ("error", js_or message (JStr "Query handler error"));
                              ("duration_ms", JNum duration)])
          | Throws e => ([HandlerCall query], Unhandled e)
          end
      end
  end.

(** [if (signature)]: the header is there and is not the empty string. *)
Definition signature_present (req : Request) : option string :=
  match x_mt_signature req with
  | Some s => if String.eqb s EmptyString then None else Some s
  | None => None
  end.

(** The callback of [this.app.post('/query', ...)]. *)
Definition post_query (agent : MTAgent) (env : Env) (req : Request)
  : list Event * Outcome :=
  match signature_present req with
  | Some signature =>
      let payload := serialize (body_value (body req)) in
      let call := VerifyCall payload signature (webhookSecret agent) in
      match verifySignature payload signature (webhookSecret agent) with
      | Throws e => ([call], Unhandled e)
      | Returns false => ([call], Responded 401 [("error", JStr "Invalid signature")])
      | Returns true =>
          let (events, out) := dispatch agent env req in
          (call :: events, out)
      end
  | None => dispatch agent env req
  end.

(** Text with ['] standing for the double quote, to write JSON readably. *)
Definition requote_char (c : ascii) : ascii :=
  if byte_of_ascii c =? 39 then ascii_of_nat 34 else c.

Fixpoint json_text (s : string) : string :=
  match s with
  | EmptyString => EmptyString
  | String c s' => String (requote_char c) (json_text s')
  end.

(* ================================================================== *)
(** ** The body parser

    [this.app.use(express.json())] hands the received bytes to
    [JSON.parse].  The reader below covers the JSON texts whose numbers are
    integers, whose strings use the short escapes only, and whose objects
    have distinct keys none of which is a run of digits (JavaScript lists
    such keys first); on any other text it answers [None].  It serves to
    tie the [rawBody] of a concrete request to its [body]. *)

Definition is_ws (c : ascii) : bool :=
  let n := byte_of_ascii c in (n =? 32) || (n =? 9) || (n =? 10) || (n =? 13).

Definition is_digit (c : ascii) : bool :=
  let n := byte_of_ascii c in (48 <=? n) && (n <=? 57).

Fixpoint skip_ws (s : string) : string :=
  match s with
  | String c s' => if is_ws c then skip_ws s' else s
  | EmptyString => s
  end.

Definition unescape (c : ascii) : option ascii :=
  let n := byte_of_ascii c in
  if (n =? 34) || (n =? 92) || (n =? 47) then Some c
  else if n =? 98 then Some (ascii_of_nat 8)
  else if n =? 102 then Some (ascii_of_nat 12)
  else if n =? 110 then Some (ascii_of_nat 10)
  else if n =? 114 then Some (ascii_of_nat 13)
  else if n =? 116 then Some (ascii_of_nat 9)
  else None.

(** The characters of a string literal, read from behind its opening
    quote, and the text left after its closing quote. *)
Fixpoint parse_string (s : string) : option (string * string) :=
  match s with
  | EmptyString => None
  | String c s' =>
      let n := byte_of_ascii c in
      if n =? 34 then Some (EmptyString, s')
      else if n =? 92 then
        match s' with
        | String e s'' =>
            match unescape e, parse_string s'' with
            | Some ch, Some (t, r) => Some (String ch t, r)
            | _, _ => None
            end
        | EmptyString => None
        end
      else if n <? 32 then None
      else match parse_string s' with
           | Some (t, r) => Some (String c t, r)
           | None => None
           end
  end.

Fixpoint parse_digits (s : string) (acc : Z) : Z * string :=
  match s with
  | String c s' =>
      if is_digit c then parse_digits s' (10 * acc + (byte_of_ascii c - 48)) else (acc, s)
  | EmptyString => (acc, s)
  end.

Definition starts_with (p : ascii -> bool) (s : string) : bool :=
  match s with
  | String c _ => p c
  | EmptyString => false
  end.

Definition is_frac_or_exp (c : ascii) : bool :=
  let n := byte_of_ascii c in (n =? 46) || (n =? 101) || (n =? 69).

(** An integer literal: digits with no leading zero, not followed by a
    fraction or an exponent. *)
Definition parse_nat_literal (s : string) : option (Z * string) :=
  match s with
  | String c s' =>
      if negb (is_digit c) then None
      else if (byte_of_ascii c =? 48) && starts_with is_digit s' then None
      else let (n, r) := parse_digits s 0 in
           if starts_with is_frac_or_exp r then None else Some (n, r)
  | EmptyString => None
  end.

Definition parse_number (s : string) : option (Z * string) :=
  match s with
  | String c s' =>
      if byte_of_ascii c =? 45
      then match parse_nat_literal s' with
           | Some (n, r) => Some (- n, r)
           | None => None
           end
      else parse_nat_literal s
  | EmptyString => None
  end.

Fixpoint strip_prefix (p s : string) : option string :=
  match p, s with
  | EmptyString, _ => Some s
  | String a p', String b s' => if Ascii.eqb a b then strip_prefix p' s' else None
  | String _ _, EmptyString => None
  end.

Fixpoint all_digits (s : string) : bool :=
  match s with
  | EmptyString => true
  | String c s' => is_digit c && all_digits s'
  end.

Fixpoint keys_ok (props : list (string * JsVal)) : bool :=
  match props with
  | [] => true
  | (k, _) :: rest =>
      negb (all_digits k)
      && negb (existsb (fun kv => String.eqb k (fst kv)) rest)
      && keys_ok rest
  end.

Definition first_code (s : string) : Z :=
  match s with
  | String c _ => byte_of_ascii c
  | EmptyString => -1
  end.

Definition rest_of (s : string) : string :=
  match s with
  | String _ s' => s'
  | EmptyString => EmptyString
  end.

Fixpoint parse_value (fuel : nat) (s : string) : option (JsVal * string) :=
  match fuel with
  | O => None
  | S f =>
      let s := skip_ws s in
      let c := first_code s in
      if c =? 123 then                                   (* { *)
        let s1 := skip_ws (rest_of s) in
        if first_code s1 =? 125 then Some (JObj [], rest_of s1)
        else match parse_members f s1 with
             | Some (props, r) => if keys_ok props then Some (JObj props, r) else None
             | None => None
             end
      else if c =? 91 then                               (* [ *)
        let s1 := skip_ws (rest_of s) in
        if first_code s1 =? 93 then Some (JArr [], rest_of s1)
        else match parse_elements f s1 with
             | Some (items, r) => Some (JArr items, r)
             | None => None
             end
      else if c =? 34 then
        match parse_string (rest_of s) with
        | Some (t, r) => Some (JStr t, r)
        | None => None
        end
      else match strip_prefix "true" s, strip_prefix "false" s, strip_prefix "null" s with
           | Some r, _, _ => Some (JBool true, r)
           | _, Some r, _ => Some (JBool false, r)
           | _, _, Some r => Some (JNull, r)
           | _, _, _ =>
               match parse_number s with
               | Some (n, r) => Some (JNum n, r)
               | None => None
               end
           end
  end
(** One or more members, then the closing brace. *)
with parse_members (fuel : nat) (s : string) : option (list (string * JsVal) * string) :=
  match fuel with
  | O => None
  | S f =>
      if negb (first_code s =? 34) then None
      else match parse_string (rest_of s) with
           | None => None
           | Some (k, r) =>
               let r := skip_ws r in
               if negb (first_code r =? 58) then None
               else match parse_value f (rest_of r) with
                    | None => None
                    | Some (v, r') =>
                        let r' := skip_ws r' in
                        if first_code r' =? 125 then Some ([(k, v)], rest_of r')
                        else if first_code r' =? 44 then
                          match parse_members f (skip_ws (rest_of r')) with
                          | Some (props, r'') => Some ((k, v) :: props, r'')
                          | None => None
                          end
                        else None
                    end
           end
  end
(** One or more elements, then the closing bracket. *)
with parse_elements (fuel : nat) (s : string) : option (list JsVal * string) :=
  match fuel with
  | O => None
  | S f =>
      match parse_value f s with
      | None => None
      | Some (v, r) =>
          let r := skip_ws r in
          if first_code r =? 93 then Some ([v], rest_of r)
          else if first_code r =? 44 then
            match parse_elements f (rest_of r) with
            | Some (items, r') => Some (v :: items, r')
            | None => None
            end
          else None
      end
  end.

Definition JSON_parse (s : string) : option JsVal :=
  match parse_value (2 * String.length s + 2) s with
  | Some (v, r) =>
      match skip_ws r with
      | EmptyString => Some v
      | String _ _ => None
      end
  | None => None
  end.

(** [express.json()] in its default strict mode: the text must parse to an
    object or an array. *)
Definition express_json (raw : string) : option Body :=
  match JSON_parse raw with
  | Some (JObj props) => Some (BObject props)
  | Some (JArr items) => Some (BArray items)
  | _ => None
  end.

(** The route was given the body the parser made of the received bytes. *)
Definition well_parsed (req : Request) : Prop :=
  express_json (rawBody req) = Some (body req).

(* ================================================================== *)
(** ** Vocabulary of the statements *)

Definition is_handler_call (e : Event) : bool :=
  match e with
  | HandlerCall _ => true
  | VerifyCall _ _ _ => false
  end.

Definition is_verify_call (e : Event) : bool :=
  match e with
  | VerifyCall _ _ _ => true
  | HandlerCall _ => false
  end.

Definition handler_invoked (run : list Event * Outcome) : bool :=
  existsb is_handler_call (fst run).

Definition verification_performed (run : list Event * Outcome) : bool :=
  existsb is_verify_call (fst run).

(** The signature step lets the request through: there is no (non-empty)
    header, or [verifySignature] returns [true]. *)
Definition passes_signature_step (agent : MTAgent) (req : Request) : bool :=
  match signature_present req with
  | None => true
  | Some signature =>
      match verifySignature (serialize (body_value (body req))) signature
                            (webhookSecret agent) with
      | Returns true => true
      | _ => false
      end
  end.

(** Every verification the run performs is over the received bytes. *)
Definition verifies_raw_bytes (agent : MTAgent) (env : Env) (req : Request) : Prop :=
  forall payload signature secret,
    In (VerifyCall payload signature secret) (fst (post_query agent env req)) ->
    payload = rawBody req.

(** The response is a 500 whose body holds [success:false] and the
    no-handler message. *)
Definition no_handler_envelope (out : Outcome) : Prop :=
  exists json,
    out = Responded 500 json
    /\ lookup "success" json = JBool false
    /\ lookup "error" json = JStr "No query handler registered".

Fixpoint has_prop (k : string) (props : list (string * JsVal)) : bool :=
  match props with
  | [] => false
  | (k', _) :: rest => String.eqb k k' || has_prop k rest
  end.

(** In the words of the specification: the value of the first alias that
    is present in the body, and the default when none is. *)
Fixpoint spec_first_present (props : list (string * JsVal)) (aliases : list string)
  (default : JsVal) : JsVal :=
  match aliases with
  | [] => default
  | k :: rest =>
      if has_prop k props then lookup k props
      else spec_first_present props rest default
  end.

Definition body_props (b : Body) : list (string * JsVal) :=
  match b with
  | BObject props => props
  | BArray _ => []
  end.

Definition spec_text (b : Body) : JsVal :=
  spec_first_present (body_props b) ["query"; "text"; "prompt"] (JStr EmptyString).

Definition spec_queryId (env : Env) (b : Body) : JsVal :=
  spec_first_present (body_props b) ["query_id"; "queryId"]
                     (JStr (crypto_randomUUID env)).

(** What the code does: the first value that is truthy. *)
Fixpoint first_truthy (vs : list JsVal) (default : JsVal) : JsVal :=
  match vs with
  | [] => default
  | v :: rest => if truthy v then v else first_truthy rest default
  end.

(** [s.toUpperCase()] on ASCII text. *)
Definition upper_char (c : ascii) : ascii :=
  let n := byte_of_ascii c in
  if (97 <=? n) && (n <=? 122) then ascii_of_N (Z.to_N (n - 32)) else c.

Fixpoint toUpperCase (s : string) : string :=
  match s with
  | EmptyString => EmptyString
  | String c s' => String (upper_char c) (toUpperCase s')
  end.

Definition is_small_letter (c : ascii) : bool :=
  (97 <=? byte_of_ascii c) && (byte_of_ascii c <=? 122).

Fixpoint has_small_letter (s : string) : bool :=
  match s with
  | EmptyString => false
  | String c s' => is_small_letter c || has_small_letter s'
  end.

(* ================================================================== *)
(** ** Sample requests, agents and surroundings *)

Definition range_error : Exn :=
  RangeError "Input buffers must have the same byte length".

Definition body_x : Body := BObject [("query", JStr "x")].

(** The same JSON value written without and with a blank after the colon
    (the second is how Python's [json.dumps] writes it). *)
Definition raw_compact : string := json_text "{'query':'x'}".
Definition raw_spaced : string := json_text "{'query': 'x'}".

Definition env0 : Env := mkEnv 1000 1005 "3b241101-e2bb-4255-8caf-4136c566a962"
                               "2025-01-01T00:00:00.000Z".

Definition handler_ok : QueryHandler :=
  fun _ => Resolves (mkResponse "ok" None (Some 3)).

(** [async () => { throw undefined }], or a promise rejected with no
    reason. *)
Definition handler_rejects_undefined : QueryHandler :=
  fun _ => Rejects JUndefined.

(** [async () => { throw new Error('boom') }] *)
Definition handler_throws_boom : QueryHandler :=
  fun _ => Rejects (JObj [("message", JStr "boom")]).

Definition agent_s1 : MTAgent := onQuery handler_ok (new_MTAgent "s1").

(** A sender holding the secret signs the bytes it sends. *)
Definition req_signed_raw : Request :=
  mkRequest raw_spaced body_x (Some (createSignature raw_spaced "s1")).

Definition req_unsigned : Request := mkRequest raw_compact body_x None.

Definition body_empty_aliases : Body :=
  BObject [("query_id", JStr EmptyString); ("queryId", JStr "q-7");
           ("query", JStr EmptyString); ("text", JStr "hi")].

(* ================================================================== *)
(** ** Counting the calls of a run *)

Definition handler_calls (run : list Event * Outcome) : nat :=
  List.length (filter is_handler_call (fst run)).

Definition verify_calls (run : list Event * Outcome) : nat :=
  List.length (filter is_verify_call (fst run)).

Definition is_registered (agent : MTAgent) : bool :=
  match queryHandler agent with
  | Some _ => true
  | None => false
  end.

Fixpoint is_lower_hex (s : string) : bool :=
  match s with
  | EmptyString => true
  | String c s' =>
      let n := byte_of_ascii c in
      (((48 <=? n) && (n <=? 57)) || ((97 <=? n) && (n <=? 102))) && is_lower_hex s'
  end.

(** The names [build_query] reads from the body. *)
Definition query_fields : list string :=
  ["query_id"; "queryId"; "query"; "text"; "prompt"; "capabilities";
   "capabilities_needed"; "metadata"; "timestamp"].

Definition no_usable_field (b : JsVal) : bool :=
  forallb (fun k => negb (truthy (get_prop b k))) query_fields.

(* ================================================================== *)
(** ** ToString *)

(** [String(v)], as [new Error(v)] applies it to its argument. *)
Fixpoint js_toString (v : JsVal) : string :=
  match v with
  | JUndefined => "undefined"
  | JNull => "null"
  | JBool b => if b then "true" else "false"
  | JNum n => string_of_Z n
  | JStr s => s
  | JArr items =>
      join "," (map (fun x => match x with
                              | JUndefined | JNull => EmptyString
                              | _ => js_toString x
                              end) items)
  | JObj _ => "[object Object]"
  end.

(* ================================================================== *)
(** ** MARKETPLACE CLIENT *)

Module Client.

(** What the ['end'] listener has in hand: [res.statusCode] and the text
    gathered from the ['data'] events. *)
Record HttpResponse : Type := mkHttp {
  statusCode : option Z;
  data : string
}.

(** The exchange with the server: it answers, or the request emits
    ['error'] with some error value. *)
Inductive Transport : Type :=
| Answered (res : HttpResponse)
| Failed (err : JsVal).

(** The network, asked with a method and a path. *)
Definition Network : Type := string -> string -> Transport.

(** What a promise is rejected with: [new Error(message)], an exception
    thrown inside an [async] function, or the transport's error value. *)
Inductive Reason : Type :=
| ErrorObj (message : string)
| Thrown (e : Exn)
| Emitted (err : JsVal).

Inductive Settled (A : Type) : Type :=
| Resolved (a : A)
| Rejected (r : Reason).
Arguments Resolved {A} a.
Arguments Rejected {A} r.

(** An [async] function body: a value returned resolves the promise, an
    exception thrown rejects it. *)
Definition settle {A : Type} (r : Result A) : Settled A :=
  match r with
  | Returns a => Resolved a
  | Throws e => Rejected (Thrown e)
  end.

Definition then_ {A B : Type} (p : Settled A) (k : A -> Result B) : Settled B :=
  match p with
  | Resolved a => settle (k a)
  | Rejected r => Rejected r
  end.

(** [res.statusCode && res.statusCode >= 400] *)
Definition is_error_status (code : option Z) : bool :=
  match code with
  | Some n => negb (n =? 0) && (400 <=? n)
  | None => false
  end.

Definition status_text (code : option Z) : string :=
  match code with
  | Some n => string_of_Z n
  | None => "undefined"
  end.

Section Request.

(** [JSON.parse]: [None] when it throws its [SyntaxError]. *)
Variable parse : string -> option JsVal.

(** The ['end'] listener of [request]: the [try] around [JSON.parse] and
    the status test. *)
Definition on_end (res : HttpResponse) : Settled JsVal :=
  match parse (data res) with
  | None => Rejected (ErrorObj ("Invalid JSON response: " ++ data res)%string)
  | Some json =>
      if is_error_status (statusCode res) then
        match read_prop json "error" with
        | Returns e =>
            Rejected (ErrorObj
              (js_toString (js_or e (JStr ("HTTP " ++ status_text (statusCode res))%string))))
        | Throws _ => Rejected (ErrorObj ("Invalid JSON response: " ++ data res)%string)
        end
      else Resolved json
  end.

Definition request (net : Network) (method path : string) : Settled JsVal :=
  match net method path with
  | Answered res => on_end res
  | Failed err => Rejected (Emitted err)
  end.

Record MarketplaceHealth : Type := mkHealth {
  status : JsVal;
  version : JsVal;
  agentsRegistered : JsVal;
  uptimeMs : JsVal
}.

Record AgentStats : Type := mkStats {
  agentUuid : string;
  totalQueries : JsVal;
  successfulQueries : JsVal;
  failedQueries : JsVal;
  successRate : JsVal;
  avgResponseTimeMs : JsVal
}.

Record AgentReputation : Type := mkReputation {
  score : JsVal;
  tier : JsVal;
  badges : JsVal
}.

Definition getHealth (net : Network) : Settled MarketplaceHealth :=
  then_ (request net "GET" "/health") (fun d =>
    let! s := read_prop d "status" in
    let! v := read_prop d "version" in
    let! a := read_prop d "agents_registered" in
    let! u := read_prop d "uptime_ms" in
    Returns (mkHealth s v a u)).

Definition getStats (net : Network) (uuid : string) : Settled AgentStats :=
  then_ (request net "GET" ("/agents/" ++ uuid ++ "/stats")%string) (fun d =>
    let! tq := read_prop d "total_queries" in
    let! sq := read_prop d "successful_queries" in
    let! fq := read_prop d "failed_queries" in
    let! sr := read_prop d "success_rate" in
    let! av := read_prop d "avg_response_time_ms" in
    Returns (mkStats uuid (js_or tq (JNum 0)) (js_or sq (JNum 0)) (js_or fq (JNum 0))
                     (js_or sr (JNum 0)) (js_or av (JNum 0)))).

Definition getReputation (net : Network) (uuid : string) : Settled AgentReputation :=
  then_ (request net "GET" ("/agents/" ++ uuid ++ "/reputation")%string) (fun d =>
    let! rs := read_prop d "reputation_score" in
    let! sc := read_prop d "score" in
    let! ti := read_prop d "tier" in
    let! ba := read_prop d "badges" in
    Returns (mkReputation (js_or (js_or rs sc) (JNum 0))
                          (js_or ti (JStr "default"))
                          (js_or ba (JArr [])))).

Definition listAgents (net : Network) : Settled JsVal :=
  then_ (request net "GET" "/agents") (fun d =>
    let! ag := read_prop d "agents" in
    Returns (js_or (js_or ag d) (JArr []))).

Definition getDashboard (net : Network) : Settled JsVal :=
  request net "GET" "/analytics/dashboard".

End Request.

(** A network that gives one answer to whatever is asked. *)
Definition always (res : HttpResponse) : Network := fun _ _ => Answered res.

End Client.

(* ================================================================== *)
(** ** The constructor's defaults *)

Definition default_marketplaceUrl : string :=
  "https://marketplace.metaltorque.dev/marketplace".

(** [MTAgentConfig]: [port] and [marketplaceUrl] may be left out. *)
Record MTAgentConfig : Type := mkConfig {
  config_apiKey : string;
  config_webhookSecret : string;
  config_port : option Z;
  config_marketplaceUrl : option string
}.

(** [Required<MTAgentConfig>], as the constructor fills it. *)
Record RequiredConfig : Type := mkRequired {
  required_apiKey : string;
  required_webhookSecret : string;
  required_port : Z;
  required_marketplaceUrl : string
}.

(** [config.port || 3000] and [config.marketplaceUrl || '...']. *)
Definition fill_config (c : MTAgentConfig) : RequiredConfig :=
  {| required_apiKey := config_apiKey c;
     required_webhookSecret := config_webhookSecret c;
     required_port :=
       match config_port c with
       | Some n => if n =? 0 then 3000 else n
       | None => 3000
       end;
     required_marketplaceUrl :=
       match config_marketplaceUrl c with
       | Some u => if String.eqb u EmptyString then default_marketplaceUrl else u
       | None => default_marketplaceUrl
       end |}.



(* ================================================================== *)
(** ** Sample answers of the marketplace *)

Definition res_404 : Client.HttpResponse :=
  Client.mkHttp (Some 404) (json_text "{'error':'Agent not found'}").

Definition res_502_html : Client.HttpResponse :=
  Client.mkHttp (Some 502) "<html>Bad Gateway</html>".

Definition res_500_null : Client.HttpResponse := Client.mkHttp (Some 500) "null".

Definition res_200_null : Client.HttpResponse := Client.mkHttp (Some 200) "null".



Definition res_zero : Client.HttpResponse := Client.mkHttp (Some 200) "0".

(* ================================================================== *)
(** ** The hash against published values *)

Example K_first_last :
  List.length SHA256.K = 64%nat
  /\ nth 0 SHA256.K 0 = 0x428a2f98 /\ nth 63 SHA256.K 0 = 0xc67178f2
  /\ SHA256.sa SHA256.H0 = 0x6a09e667 /\ SHA256.sh SHA256.H0 = 0x5be0cd19.
Proof. repeat split. Qed.

Example sha256_abc :
  hex_encode (SHA256.sha256 (Buffer_from "abc"))
  = "ba7816bf8f01cfea414140de5dae2223b00361a396177a9cb410ff61f20015ad".
Proof. vm_compute. reflexivity. Qed.

Example hmac_sha256_fox :
  createSignature "The quick brown fox jumps over the lazy dog" "key"
  = "f7bc83f430538424b13298e6aa6fb143ef4d59a14946175997479dbc2d1a3cd8".
Proof. vm_compute. reflexivity. Qed.

(** A key longer than one block and a message of several blocks. *)
Example hmac_sha256_long :
  hex_encode (SHA256.hmac (repeat 107 70) (repeat 97 130))
  = "bc96a3db179aec292930cedb40322650fb8aa77c0fde4d89fa0f1cb95b8dfa29".
Proof. vm_compute. reflexivity. Qed.

(* ================================================================== *)
(** ** Lengths and equality of buffers *)

Lemma length_digest_bytes (s : SHA256.State) :
  List.length (SHA256.digest_bytes s) = 32%nat.
Proof. reflexivity. Qed.

Lemma length_sha256 (msg : list Z) : List.length (SHA256.sha256 msg) = 32%nat.
Proof. unfold SHA256.sha256. apply length_digest_bytes. Qed.

Lemma length_hmac (key msg : list Z) : List.length (SHA256.hmac key msg) = 32%nat.
Proof. unfold SHA256.hmac. apply length_sha256. Qed.

Lemma length_hex_encode (bs : list Z) :
  String.length (hex_encode bs) = (2 * List.length bs)%nat.
Proof. induction bs as [|b bs IH]; simpl; [reflexivity | rewrite IH; lia]. Qed.

Lemma length_createSignature (payload secret : string) :
  String.length (createSignature payload secret) = 64%nat.
Proof.
  unfold createSignature, hmac_sha256_hex.
  rewrite length_hex_encode, length_hmac. reflexivity.
Qed.

Lemma length_Buffer_from (s : string) :
  List.length (Buffer_from s) = String.length s.
Proof.
  unfold Buffer_from. rewrite length_map.
  induction s as [|c s IH]; simpl; [reflexivity | now rewrite IH].
Qed.

Lemma buffer_eqb_eq (a b : Buffer) : buffer_eqb a b = true <-> a = b.
Proof.
  revert b. induction a as [|x a IH]; intros [|y b]; simpl; split; intro H;
    try reflexivity; try discriminate.
  - apply andb_true_iff in H as [Hx Hab].
    apply Z.eqb_eq in Hx. apply IH in Hab. now subst.
  - injection H as -> ->. rewrite Z.eqb_refl. now apply IH.
Qed.

Lemma byte_of_ascii_inj (a b : ascii) : byte_of_ascii a = byte_of_ascii b -> a = b.
Proof.
  unfold byte_of_ascii. intro H. apply N2Z.inj in H.
  rewrite <- (ascii_N_embedding a), <- (ascii_N_embedding b). now rewrite H.
Qed.

Lemma Buffer_from_inj (s t : string) : Buffer_from s = Buffer_from t -> s = t.
Proof.
  revert t. induction s as [|c s IH]; intros [|d t] H; try reflexivity;
    try discriminate.
  unfold Buffer_from in *. simpl in H. injection H as Hc Hs.
  apply byte_of_ascii_inj in Hc. apply IH in Hs. now subst.
Qed.

Lemma buffer_eqb_Buffer_from (s t : string) :
  buffer_eqb (Buffer_from s) (Buffer_from t) = String.eqb s t.
Proof.
  destruct (String.eqb s t) eqn:E.
  - apply String.eqb_eq in E. subst. now apply buffer_eqb_eq.
  - apply String.eqb_neq in E.
    destruct (buffer_eqb (Buffer_from s) (Buffer_from t)) eqn:B; [|reflexivity].
    apply buffer_eqb_eq, Buffer_from_inj in B. contradiction.
Qed.

(** A signature of the digest's length is compared character by
    character with the lowercase hexadecimal digest. *)
Lemma verifySignature_same_length (payload signature secret : string) :
  String.length signature = 64%nat ->
  verifySignature payload signature secret
  = Returns (String.eqb signature (createSignature payload secret)).
Proof.
  intro H. unfold verifySignature, timingSafeEqual.
  rewrite !length_Buffer_from, H.
  change (hmac_sha256_hex secret payload) with (createSignature payload secret).
  rewrite length_createSignature. simpl.
  now rewrite buffer_eqb_Buffer_from.
Qed.

(** A signature of any other length makes [timingSafeEqual] throw. *)
Lemma verifySignature_length_mismatch (payload signature secret : string) :
  String.length signature <> 64%nat ->
  verifySignature payload signature secret = Throws range_error.
Proof.
  intro H. unfold verifySignature, timingSafeEqual.
  rewrite !length_Buffer_from.
  change (hmac_sha256_hex secret payload) with (createSignature payload secret).
  rewrite length_createSignature.
  apply Nat.eqb_neq in H. now rewrite H.
Qed.

(* ================================================================== *)
(** ** The signature check *)

(** C1.  A malformed signature does not make [verifySignature] return
    [false]: given the three-character signature [abc], whose length is not
    that of the digest, the call throws the [RangeError] of
    [crypto.timingSafeEqual], for every payload and every secret. *)
Theorem C1_wrong_length_signature_throws (payload secret : string) :
  verifySignature payload "abc" secret = Throws range_error.
Proof. apply verifySignature_length_mismatch. simpl. lia. Qed.

(** C2.  Round trip: a payload verifies against its own signature under
    the same secret. *)
Theorem C2_verify_createSignature (payload secret : string) :
  verifySignature payload (createSignature payload secret) secret = Returns true.
Proof.
  rewrite verifySignature_same_length by apply length_createSignature.
  now rewrite String.eqb_refl.
Qed.

(** X2.  [verifySignature] returns [true] on exactly one string, the lowercase
    hexadecimal digest. *)
Lemma verifySignature_true_iff (payload signature secret : string) :
  verifySignature payload signature secret = Returns true
  <-> signature = createSignature payload secret.
Proof.
  split.
  - intro H. destruct (Nat.eq_dec (String.length signature) 64) as [L|L].
    + rewrite verifySignature_same_length in H by exact L.
      injection H as H. now apply String.eqb_eq.
    + rewrite verifySignature_length_mismatch in H by exact L. discriminate.
  - intros ->.
    rewrite verifySignature_same_length by apply length_createSignature.
    now rewrite String.eqb_refl.
Qed.

Lemma length_toUpperCase (s : string) :
  String.length (toUpperCase s) = String.length s.
Proof. induction s as [|c s IH]; simpl; [reflexivity | now rewrite IH]. Qed.

(** The comparison is on the characters of the hexadecimal text, so it
    tells capitals from small letters: the capitalised signature is
    accepted exactly when capitalising changed nothing, that is, when the
    digest has no digit among a-f. *)
Lemma verifySignature_toUpperCase (payload secret : string) :
  verifySignature payload (toUpperCase (createSignature payload secret)) secret
  = Returns (String.eqb (toUpperCase (createSignature payload secret))
                        (createSignature payload secret)).
Proof.
  apply verifySignature_same_length.
  rewrite length_toUpperCase. apply length_createSignature.
Qed.

Lemma upper_char_eqb (c : ascii) :
  Ascii.eqb (upper_char c) c = negb (is_small_letter c).
Proof. destruct c as [[] [] [] [] [] [] [] []]; reflexivity. Qed.

Lemma toUpperCase_eqb (s : string) :
  String.eqb (toUpperCase s) s = negb (has_small_letter s).
Proof.
  induction s as [|c s IH]; [reflexivity|].
  cbn [toUpperCase has_small_letter String.eqb].
  rewrite upper_char_eqb, IH. now rewrite negb_orb.
Qed.

(** X4.  The capitalised signature is accepted exactly when the digest has no
    small letter, and rejected (not thrown at) otherwise. *)
Lemma verifySignature_toUpperCase_letters (payload secret : string) :
  verifySignature payload (toUpperCase (createSignature payload secret)) secret
  = Returns (negb (has_small_letter (createSignature payload secret))).
Proof. now rewrite verifySignature_toUpperCase, toUpperCase_eqb. Qed.

Example uppercase_signature_rejected :
  createSignature raw_compact "s1"
  = "ead990ec0d3059df5cae16a4bbd2e324f95db14d27b0e3d12521fd52a52fc678"
  /\ verifySignature raw_compact (toUpperCase (createSignature raw_compact "s1")) "s1"
     = Returns false.
Proof. split; vm_compute; reflexivity. Qed.

(* ================================================================== *)
(** ** The signature step of the route *)

Lemma dispatch_no_verification (agent : MTAgent) (env : Env) (req : Request) :
  existsb is_verify_call (fst (dispatch agent env req)) = false.
Proof.
  unfold dispatch. destruct (queryHandler agent) as [h|]; [|reflexivity].
  destruct (h _) as [r|e]; [reflexivity|].
  destruct (read_prop e "message"); reflexivity.
Qed.

(** C3, as the code has it.  When the request carries a non-empty
    signature header, the one verification of the run is over
    [JSON.stringify(req.body)], the parsed body written out again; the bytes
    received play no part. *)
Theorem C3_payload_is_stringified_body
  (agent : MTAgent) (env : Env) (req : Request) (signature : string) :
  signature_present req = Some signature ->
  exists rest,
    fst (post_query agent env req)
    = VerifyCall (serialize (body_value (body req))) signature (webhookSecret agent) :: rest
    /\ existsb is_verify_call rest = false.
Proof.
  intro H. unfold post_query. rewrite H.
  destruct (verifySignature _ _ _) as [[|]|e].
  - pose proof (dispatch_no_verification agent env req) as D.
    destruct (dispatch agent env req) as [events out].
    exists events. split; [reflexivity | exact D].
  - exists []. split; reflexivity.
  - exists []. split; reflexivity.
Qed.

Lemma C3_payload_is_stringified_body_witness :
  signature_present
    (mkRequest raw_spaced body_x
       (Some "ead990ec0d3059df5cae16a4bbd2e324f95db14d27b0e3d12521fd52a52fc678"))
  = Some "ead990ec0d3059df5cae16a4bbd2e324f95db14d27b0e3d12521fd52a52fc678"
  /\ exists rest,
       fst (post_query agent_s1 env0
              (mkRequest raw_spaced body_x
                 (Some "ead990ec0d3059df5cae16a4bbd2e324f95db14d27b0e3d12521fd52a52fc678")))
       = VerifyCall raw_compact
           "ead990ec0d3059df5cae16a4bbd2e324f95db14d27b0e3d12521fd52a52fc678" "s1" :: rest
       /\ existsb is_verify_call rest = false.
Proof.
  split; [reflexivity|].
  apply (C3_payload_is_stringified_body agent_s1 env0
           (mkRequest raw_spaced body_x
              (Some "ead990ec0d3059df5cae16a4bbd2e324f95db14d27b0e3d12521fd52a52fc678"))).
  reflexivity.
Defined.

(** C3, as the specification words it, fails.  The request below carries
    the bytes [{"query": "x"}], which the parser reads as the body
    [{query: 'x'}], and the signature of those very bytes under the agent's
    secret; the run verifies the text [{"query":"x"}] instead. *)
Lemma C3_payload_is_not_the_raw_body :
  well_parsed req_signed_raw
  /\ signature_present req_signed_raw <> None
  /\ ~ verifies_raw_bytes agent_s1 env0 req_signed_raw.
Proof.
  split; [vm_compute; reflexivity|].
  split; [vm_compute; discriminate|].
  intro H.
  assert (E : fst (post_query agent_s1 env0 req_signed_raw)
              = [VerifyCall raw_compact (createSignature raw_spaced "s1") "s1"])
    by (vm_compute; reflexivity).
  specialize (H raw_compact (createSignature raw_spaced "s1") "s1").
  rewrite E in H. specialize (H (or_introl eq_refl)).
  vm_compute in H. discriminate H.
Qed.

(** The sender of that request signed what it sent, and is turned away. *)
Example signed_raw_bytes_rejected :
  snd (post_query agent_s1 env0 req_signed_raw)
  = Responded 401 [("error", JStr "Invalid signature")].
Proof. vm_compute. reflexivity. Qed.

(** X8.  [if (signature)] takes a header with an empty value for no header. *)
Lemma empty_header_is_no_header
  (agent : MTAgent) (env : Env) (raw : string) (b : Body) :
  post_query agent env (mkRequest raw b (Some EmptyString))
  = post_query agent env (mkRequest raw b None).
Proof. reflexivity. Qed.

(** X7.  A header of the digest's length that is not the expected signature is
    answered 401, and the handler is not called. *)
Lemma wrong_signature_of_digest_length
  (agent : MTAgent) (env : Env) (req : Request) (signature : string) :
  x_mt_signature req = Some signature ->
  String.length signature = 64%nat ->
  signature <> createSignature (serialize (body_value (body req))) (webhookSecret agent) ->
  post_query agent env req
  = ([VerifyCall (serialize (body_value (body req))) signature (webhookSecret agent)],
     Responded 401 [("error", JStr "Invalid signature")]).
Proof.
  intros Hh Hl Hneq. unfold post_query, signature_present. rewrite Hh.
  destruct (String.eqb signature EmptyString) eqn:E.
  - apply String.eqb_eq in E. subst. discriminate Hl.
  - rewrite verifySignature_same_length by exact Hl.
    apply String.eqb_neq in Hneq. now rewrite Hneq.
Qed.

(** The scenario of the specification: secret [s1], body [{"query":"x"}],
    header signed with [s2]. *)
Example signed_with_another_secret :
  post_query agent_s1 env0
    (mkRequest raw_compact body_x (Some (createSignature raw_compact "s2")))
  = ([VerifyCall raw_compact
        "fd0825406448bf79ff52b21260571a8e393b661d22fe08e0de6c3ad7ad7c10de" "s1"],
     Responded 401 [("error", JStr "Invalid signature")]).
Proof. vm_compute. reflexivity. Qed.

(** C4.  A signature header that does not verify is not always answered
    401: when the header is [abc], whose length is not the digest's, the
    [RangeError] of [verifySignature] leaves the route callback, which lies
    outside the [try], and no response is written. *)
Theorem C4_wrong_length_header_gets_no_401
  (agent : MTAgent) (env : Env) (raw : string) (b : Body) :
  post_query agent env (mkRequest raw b (Some "abc"))
  = ([VerifyCall (serialize (body_value b)) "abc" (webhookSecret agent)],
     Unhandled range_error).
Proof.
  unfold post_query, signature_present.
  cbn [x_mt_signature body String.eqb].
  rewrite verifySignature_length_mismatch by (simpl; lia).
  reflexivity.
Qed.

(* ================================================================== *)
(** ** Normalisation of the query *)

(** C5, as the code has it.  Each field is read from the first alias whose
    value is truthy (not [undefined], [null], [false], [0] or the empty
    string): [text] from [query], [text], [prompt], else the empty string;
    [queryId] from [query_id], [queryId], else what [crypto.randomUUID()]
    gives.  The body [{"query":"hi"}] yields the text [hi]. *)
Theorem C5_aliases_first_truthy (env : Env) (b : Body) :
  text (build_query env (body_value b))
  = first_truthy (map (get_prop (body_value b)) ["query"; "text"; "prompt"])
                 (JStr EmptyString)
  /\ queryId (build_query env (body_value b))
     = first_truthy (map (get_prop (body_value b)) ["query_id"; "queryId"])
                    (JStr (crypto_randomUUID env))
  /\ text (build_query env (JObj [("query", JStr "hi")])) = JStr "hi".
Proof.
  repeat split.
  - cbn [build_query text map first_truthy]. unfold js_or.
    destruct (truthy (get_prop (body_value b) "query")) eqn:Eq;
      cbv iota; rewrite ?Eq; [reflexivity|].
    destruct (truthy (get_prop (body_value b) "text")) eqn:Et;
      cbv iota; rewrite ?Et; reflexivity.
  - cbn [build_query queryId map first_truthy]. unfold js_or.
    destruct (truthy (get_prop (body_value b) "query_id")) eqn:Eq;
      cbv iota; rewrite ?Eq; reflexivity.
Qed.

(** C5, as the specification words it, fails.  In the body
    [{"query_id":"", "queryId":"q-7", "query":"", "text":"hi"}] the fields
    [query] and [query_id] are present, yet the text is read from [text]
    and the identifier from [queryId]. *)
Lemma C5_present_but_empty_alias_is_skipped :
  text (build_query env0 (body_value body_empty_aliases)) = JStr "hi"
  /\ spec_text body_empty_aliases = JStr EmptyString
  /\ queryId (build_query env0 (body_value body_empty_aliases)) = JStr "q-7"
  /\ spec_queryId env0 body_empty_aliases = JStr EmptyString
  /\ text (build_query env0 (body_value body_empty_aliases))
     <> spec_text body_empty_aliases
  /\ queryId (build_query env0 (body_value body_empty_aliases))
     <> spec_queryId env0 body_empty_aliases.
Proof. repeat split; try reflexivity; vm_compute; discriminate. Qed.

(** Where the first alias present is truthy, both readings agree. *)
Lemma first_present_truthy_is_read (props : list (string * JsVal)) (k : string)
  (rest : list string) (d : JsVal) :
  has_prop k props = true ->
  truthy (lookup k props) = true ->
  first_truthy (map (get_prop (JObj props)) (k :: rest)) d
  = spec_first_present props (k :: rest) d.
Proof. intros Hp Ht. simpl. now rewrite Hp, Ht. Qed.

(* ================================================================== *)
(** ** From the handler test to the response *)

Lemma post_query_after_signature (agent : MTAgent) (env : Env) (req : Request) :
  passes_signature_step agent req = true ->
  snd (post_query agent env req) = snd (dispatch agent env req)
  /\ handler_invoked (post_query agent env req)
     = handler_invoked (dispatch agent env req).
Proof.
  unfold passes_signature_step, post_query, handler_invoked.
  destruct (signature_present req) as [signature|]; [|now split].
  destruct (verifySignature _ _ _) as [[|]|e]; try discriminate.
  intros _. destruct (dispatch agent env req) as [events out]. now split.
Qed.

(** C6, as the code has it.  With no handler registered, a request that
    the signature step lets through is answered 500 with the body
    [{error: "No query handler registered"}] and nothing else in it, and
    no handler is called. *)
Theorem C6_no_handler_registered (agent : MTAgent) (env : Env) (req : Request) :
  queryHandler agent = None ->
  passes_signature_step agent req = true ->
  snd (post_query agent env req)
  = Responded 500 [("error", JStr "No query handler registered")]
  /\ handler_invoked (post_query agent env req) = false.
Proof.
  intros Hh Hp. destruct (post_query_after_signature agent env req Hp) as [-> ->].
  unfold handler_invoked, dispatch. rewrite Hh. now split.
Qed.

Lemma C6_no_handler_registered_witness :
  queryHandler (new_MTAgent "s1") = None
  /\ passes_signature_step (new_MTAgent "s1") req_unsigned = true
  /\ snd (post_query (new_MTAgent "s1") env0 req_unsigned)
     = Responded 500 [("error", JStr "No query handler registered")]
  /\ handler_invoked (post_query (new_MTAgent "s1") env0 req_unsigned) = false.
Proof.
  split; [reflexivity|]. split; [reflexivity|].
  apply (C6_no_handler_registered (new_MTAgent "s1") env0 req_unsigned); reflexivity.
Defined.

(** C6, as the specification words it, fails: the body of that response
    has no [success] field. *)
Lemma C6_no_success_field :
  ~ no_handler_envelope (snd (post_query (new_MTAgent "s1") env0 req_unsigned)).
Proof.
  intros [json [E [S _]]]. vm_compute in E. injection E as <-.
  vm_compute in S. discriminate S.
Qed.


Example handler_throws_boom_answered :
  post_query (onQuery handler_throws_boom (new_MTAgent "s1")) env0 req_unsigned
  = ([HandlerCall (build_query env0 (body_value body_x))],
     Responded 500 [("success", JBool false); ("error", JStr "boom");
                    ("duration_ms", JNum 5)]).
Proof. reflexivity. Qed.

(** C7.  Not every handler failure is turned into a response: when the
    handler rejects with [undefined], reading [error.message] in the
    [catch] block throws a [TypeError], which leaves the route callback
    with no response written. *)
Theorem C7_rejection_with_undefined_escapes
  (secret : string) (env : Env) (raw : string) (b : Body) :
  post_query (onQuery handler_rejects_undefined (new_MTAgent secret)) env
             (mkRequest raw b None)
  = ([HandlerCall (build_query env (body_value b))],
     Unhandled (TypeError "Cannot read properties of undefined (reading 'message')")).
Proof. reflexivity. Qed.

(** C8.  With no signature header, nothing is verified and the registered
    handler is called, once, with the normalised query. *)
Theorem C8_no_header_reaches_handler
  (agent : MTAgent) (env : Env) (req : Request) (h : QueryHandler) :
  x_mt_signature req = None ->
  queryHandler agent = Some h ->
  verification_performed (post_query agent env req) = false
  /\ handler_invoked (post_query agent env req) = true
  /\ fst (post_query agent env req)
     = [HandlerCall (build_query env (body_value (body req)))].
Proof.
  intros Hs Hh.
  unfold verification_performed, handler_invoked, post_query, signature_present, dispatch.
  rewrite Hs, Hh.
  destruct (h _) as [r|e]; [now repeat split|].
  destruct (read_prop e "message"); now repeat split.
Qed.

Lemma C8_no_header_reaches_handler_witness :
  x_mt_signature req_unsigned = None
  /\ queryHandler agent_s1 = Some handler_ok
  /\ verification_performed (post_query agent_s1 env0 req_unsigned) = false
  /\ handler_invoked (post_query agent_s1 env0 req_unsigned) = true
  /\ fst (post_query agent_s1 env0 req_unsigned)
     = [HandlerCall (build_query env0 (body_value (body req_unsigned)))].
Proof.
  split; [reflexivity|]. split; [reflexivity|].
  apply (C8_no_header_reaches_handler agent_s1 env0 req_unsigned handler_ok);
    reflexivity.
Defined.

(** C10.  When the handler resolves, the response is a 200 whose body has
    the four fields [success], [response], [metadata], [duration_ms], in
    that order and no other: the [cost] of the handler's result is not in
    it, and the body does not depend on it. *)
Theorem C10_cost_is_dropped
  (agent : MTAgent) (env : Env) (req : Request) (h : QueryHandler) (r : QueryResponse) :
  queryHandler agent = Some h ->
  passes_signature_step agent req = true ->
  h (build_query env (body_value (body req))) = Resolves r ->
  exists json,
    snd (post_query agent env req) = Responded 200 json
    /\ map fst json = ["success"; "response"; "metadata"; "duration_ms"]
    /\ has_prop "cost" json = false
    /\ json = [("success", JBool true);
               ("response", JStr (response r));
               ("metadata", opt_value (response_metadata r));
               ("duration_ms", JNum (Date_now_end env - Date_now_start env))].
Proof.
  intros Hh Hp Hr.
  destruct (post_query_after_signature agent env req Hp) as [-> _].
  unfold dispatch. rewrite Hh, Hr.
  eexists. split; [reflexivity|]. now repeat split.
Qed.

Lemma C10_cost_is_dropped_witness :
  queryHandler agent_s1 = Some handler_ok
  /\ passes_signature_step agent_s1 req_unsigned = true
  /\ handler_ok (build_query env0 (body_value (body req_unsigned)))
     = Resolves (mkResponse "ok" None (Some 3))
  /\ exists json,
       snd (post_query agent_s1 env0 req_unsigned) = Responded 200 json
       /\ map fst json = ["success"; "response"; "metadata"; "duration_ms"]
       /\ has_prop "cost" json = false
       /\ json = [("success", JBool true);
                  ("response", JStr "ok");
                  ("metadata", JUndefined);
                  ("duration_ms", JNum (Date_now_end env0 - Date_now_start env0))].
Proof.
  split; [reflexivity|]. split; [reflexivity|]. split; [reflexivity|].
  apply (C10_cost_is_dropped agent_s1 env0 req_unsigned handler_ok
           (mkResponse "ok" None (Some 3))); reflexivity.
Defined.

(* ================================================================== *)
(** ** More on the signature functions *)

Lemma hex_digit_lower (n : Z) :
  0 <= n < 16 ->
  is_lower_hex (String (hex_digit n) EmptyString) = true.
Proof.
  intro H.
  assert (I : In n [0; 1; 2; 3; 4; 5; 6; 7; 8; 9; 10; 11; 12; 13; 14; 15])
    by (simpl; lia).
  simpl in I.
  repeat (destruct I as [<-|I]; [reflexivity|]). contradiction.
Qed.

Lemma is_lower_hex_hex_encode (bs : list Z) :
  Forall (fun b => 0 <= b < 256) bs -> is_lower_hex (hex_encode bs) = true.
Proof.
  induction 1 as [|b bs Hb _ IH]; [reflexivity|].
  assert (H1 : 0 <= b / 16 < 16).
  { split; [apply Z.div_pos; lia | apply Z.div_lt_upper_bound; lia]. }
  assert (H2 : 0 <= b mod 16 < 16) by (apply Z.mod_pos_bound; lia).
  apply hex_digit_lower in H1. apply hex_digit_lower in H2.
  cbn [hex_encode is_lower_hex] in *.
  rewrite andb_true_r in H1, H2. now rewrite H1, H2, IH.
Qed.

Lemma digest_bytes_are_bytes (s : SHA256.State) :
  Forall (fun b => 0 <= b < 256) (SHA256.digest_bytes s).
Proof.
  unfold SHA256.digest_bytes, SHA256.bytes_of_word. cbn [app].
  repeat constructor; apply Z.mod_pos_bound; lia.
Qed.

(** X1.  Every signature [createSignature] makes is 64 characters long, each
    one of [0-9a-f]. *)
Theorem createSignature_lowercase_hex (payload secret : string) :
  String.length (createSignature payload secret) = 64%nat
  /\ is_lower_hex (createSignature payload secret) = true.
Proof.
  split; [apply length_createSignature|].
  unfold createSignature, hmac_sha256_hex, SHA256.hmac, SHA256.sha256.
  apply is_lower_hex_hex_encode, digest_bytes_are_bytes.
Qed.

(** X3.  [verifySignature] returns a boolean exactly when the signature it is
    given has 64 bytes; on any other length it throws. *)
Theorem verifySignature_returns_iff_length (payload signature secret : string) :
  (exists b, verifySignature payload signature secret = Returns b)
  <-> String.length signature = 64%nat.
Proof.
  split.
  - intros [b H]. destruct (Nat.eq_dec (String.length signature) 64) as [L|L];
      [exact L|].
    rewrite verifySignature_length_mismatch in H by exact L. discriminate.
  - intro L. eexists. now apply verifySignature_same_length.
Qed.

(* ================================================================== *)
(** ** More on the route *)

Lemma createSignature_not_empty (payload secret : string) :
  String.eqb (createSignature payload secret) EmptyString = false.
Proof.
  apply String.eqb_neq. intro E.
  pose proof (length_createSignature payload secret) as L.
  rewrite E in L. discriminate L.
Qed.

(** X5.  A request whose header is the signature of [JSON.stringify(req.body)]
    under the agent's secret is verified, then handed to the registered
    handler; it ends as the route ends without a header. *)
Theorem signed_request_reaches_handler
  (agent : MTAgent) (env : Env) (req : Request) (h : QueryHandler) :
  x_mt_signature req
  = Some (createSignature (serialize (body_value (body req))) (webhookSecret agent)) ->
  queryHandler agent = Some h ->
  fst (post_query agent env req)
  = [VerifyCall (serialize (body_value (body req)))
                (createSignature (serialize (body_value (body req))) (webhookSecret agent))
                (webhookSecret agent);
     HandlerCall (build_query env (body_value (body req)))]
  /\ snd (post_query agent env req) = snd (dispatch agent env req).
Proof.
  intros Hs Hh. unfold post_query, signature_present.
  rewrite Hs, createSignature_not_empty.
  assert (V : verifySignature (serialize (body_value (body req)))
                (createSignature (serialize (body_value (body req))) (webhookSecret agent))
                (webhookSecret agent) = Returns true)
    by (rewrite verifySignature_same_length by apply length_createSignature;
        now rewrite String.eqb_refl).
  rewrite V. unfold dispatch. rewrite Hh.
  destruct (h _) as [r|e]; [now split|].
  destruct (read_prop e "message"); now split.
Qed.

Lemma signed_request_reaches_handler_witness :
  x_mt_signature (mkRequest raw_spaced body_x (Some (createSignature raw_compact "s1")))
  = Some (createSignature
            (serialize (body_value (body (mkRequest raw_spaced body_x
                                            (Some (createSignature raw_compact "s1"))))))
            (webhookSecret agent_s1))
  /\ queryHandler agent_s1 = Some handler_ok
  /\ fst (post_query agent_s1 env0
            (mkRequest raw_spaced body_x (Some (createSignature raw_compact "s1"))))
     = [VerifyCall raw_compact (createSignature raw_compact "s1") "s1";
        HandlerCall (build_query env0 (body_value body_x))]
  /\ snd (post_query agent_s1 env0
            (mkRequest raw_spaced body_x (Some (createSignature raw_compact "s1"))))
     = snd (dispatch agent_s1 env0
              (mkRequest raw_spaced body_x (Some (createSignature raw_compact "s1")))).
Proof.
  split; [reflexivity|]. split; [reflexivity|].
  apply (signed_request_reaches_handler agent_s1 env0
           (mkRequest raw_spaced body_x (Some (createSignature raw_compact "s1")))
           handler_ok); reflexivity.
Defined.

Lemma dispatch_handler_invoked (agent : MTAgent) (env : Env) (req : Request) :
  handler_invoked (dispatch agent env req) = is_registered agent.
Proof.
  unfold handler_invoked, dispatch, is_registered.
  destruct (queryHandler agent) as [h|]; [|reflexivity].
  destruct (h _) as [r|e]; [reflexivity|].
  destruct (read_prop e "message"); reflexivity.
Qed.

(** X6.  The handler is called exactly when one is registered and the
    signature step lets the request through: a header that does not
    verify, whether it is answered 401 or makes the check throw, never
    reaches the handler. *)
Theorem handler_invoked_iff (agent : MTAgent) (env : Env) (req : Request) :
  handler_invoked (post_query agent env req)
  = is_registered agent && passes_signature_step agent req.
Proof.
  destruct (passes_signature_step agent req) eqn:P.
  - destruct (post_query_after_signature agent env req P) as [_ ->].
    rewrite dispatch_handler_invoked. now rewrite andb_true_r.
  - rewrite andb_false_r. revert P.
    unfold passes_signature_step, post_query, handler_invoked.
    destruct (signature_present req) as [signature|]; [|discriminate].
    destruct (verifySignature _ _ _) as [[|]|e]; [discriminate| |]; reflexivity.
Qed.

(** X9.  The ways the route can end.  A response is a 200 with [success:true],
    the 401 of the signature step, or a 500 that either carries
    [success:false] or is the no-handler body; an exception that is not
    answered is the [RangeError] of the signature check or a
    [TypeError]. *)
Theorem post_query_outcomes (agent : MTAgent) (env : Env) (req : Request) :
  match snd (post_query agent env req) with
  | Responded st json =>
      (st = 200 /\ lookup "success" json = JBool true)
      \/ (st = 401 /\ json = [("error", JStr "Invalid signature")])
      \/ (st = 500 /\ lookup "success" json = JBool false)
      \/ (st = 500 /\ json = [("error", JStr "No query handler registered")])
  | Unhandled e => e = range_error \/ exists m, e = TypeError m
  end.
Proof.
  assert (D : match snd (dispatch agent env req) with
              | Responded st json =>
                  (st = 200 /\ lookup "success" json = JBool true)
                  \/ (st = 401 /\ json = [("error", JStr "Invalid signature")])
                  \/ (st = 500 /\ lookup "success" json = JBool false)
                  \/ (st = 500 /\ json = [("error", JStr "No query handler registered")])
              | Unhandled e => e = range_error \/ exists m, e = TypeError m
              end).
  { unfold dispatch. destruct (queryHandler agent) as [h|]; [|simpl; tauto].
    destruct (h _) as [r|e]; [simpl; tauto|].
    destruct e; simpl; eauto 6. }
  unfold post_query. destruct (signature_present req) as [signature|]; [|exact D].
  unfold verifySignature, timingSafeEqual.
  destruct (Nat.eqb _ _); [|simpl; now left].
  destruct (buffer_eqb _ _); [|simpl; tauto].
  destruct (dispatch agent env req) as [events out]. exact D.
Qed.

(** X10.  One request makes at most one verification and at most one handler
    call, and the handler call, when there is one, is on the query
    normalised from the body. *)
Theorem post_query_calls (agent : MTAgent) (env : Env) (req : Request) :
  (verify_calls (post_query agent env req) <= 1)%nat
  /\ (handler_calls (post_query agent env req) <= 1)%nat
  /\ filter is_handler_call (fst (post_query agent env req))
     = if handler_invoked (post_query agent env req)
       then [HandlerCall (build_query env (body_value (body req)))]
       else [].
Proof.
  assert (D : fst (dispatch agent env req) = []
              \/ fst (dispatch agent env req)
                 = [HandlerCall (build_query env (body_value (body req)))]).
  { unfold dispatch. destruct (queryHandler agent) as [h|]; [|now left].
    destruct (h _) as [r|e]; [now right|].
    destruct (read_prop e "message"); now right. }
  unfold verify_calls, handler_calls, handler_invoked, post_query.
  destruct (signature_present req) as [signature|].
  - destruct (verifySignature _ _ _) as [[|]|e]; cbn; try (repeat split; lia).
    destruct (dispatch agent env req) as [events out]. cbn in *.
    destruct D as [->| ->]; cbn; repeat split; lia.
  - destruct D as [E|E]; rewrite E; cbn; repeat split; lia.
Qed.

Lemma wrong_signature_of_digest_length_witness :
  x_mt_signature (mkRequest raw_compact body_x
     (Some "fd0825406448bf79ff52b21260571a8e393b661d22fe08e0de6c3ad7ad7c10de"))
  = Some "fd0825406448bf79ff52b21260571a8e393b661d22fe08e0de6c3ad7ad7c10de"
  /\ String.length "fd0825406448bf79ff52b21260571a8e393b661d22fe08e0de6c3ad7ad7c10de"
     = 64%nat
  /\ "fd0825406448bf79ff52b21260571a8e393b661d22fe08e0de6c3ad7ad7c10de"
     <> createSignature (serialize (body_value body_x)) (webhookSecret agent_s1)
  /\ post_query agent_s1 env0
       (mkRequest raw_compact body_x
          (Some "fd0825406448bf79ff52b21260571a8e393b661d22fe08e0de6c3ad7ad7c10de"))
     = ([VerifyCall raw_compact
           "fd0825406448bf79ff52b21260571a8e393b661d22fe08e0de6c3ad7ad7c10de" "s1"],
        Responded 401 [("error", JStr "Invalid signature")]).
Proof.
  split; [reflexivity|]. split; [reflexivity|].
  split; [vm_compute; discriminate|].
  apply (wrong_signature_of_digest_length agent_s1 env0
           (mkRequest raw_compact body_x
              (Some "fd0825406448bf79ff52b21260571a8e393b661d22fe08e0de6c3ad7ad7c10de")));
    [reflexivity | reflexivity | vm_compute; discriminate].
Defined.


(* ================================================================== *)
(** ** More on the normalisation *)

Lemma truthy_js_or_r (a b : JsVal) : truthy b = true -> truthy (js_or a b) = true.
Proof. intro H. unfold js_or. destruct (truthy a) eqn:E; [exact E | exact H]. Qed.

Lemma js_or_empty (a : JsVal) :
  truthy (js_or a (JStr EmptyString)) = true \/ js_or a (JStr EmptyString) = JStr EmptyString.
Proof. unfold js_or. destruct (truthy a) eqn:E; [now left | now right]. Qed.

(** X12.  Whatever the body holds, the handler is given a query none of whose
    fields is [undefined], [null] or otherwise falsy, but for the text,
    which may be the empty string (this, as long as the identifier and the
    date the runtime supplies are not empty). *)
Theorem build_query_fields_defined (env : Env) (b : JsVal) :
  crypto_randomUUID env <> EmptyString ->
  Date_toISOString env <> EmptyString ->
  truthy (queryId (build_query env b)) = true
  /\ truthy (capabilities (build_query env b)) = true
  /\ truthy (metadata (build_query env b)) = true
  /\ truthy (timestamp (build_query env b)) = true
  /\ (truthy (text (build_query env b)) = true
      \/ text (build_query env b) = JStr EmptyString).
Proof.
  intros Hu Hd. apply String.eqb_neq in Hu, Hd.
  cbn [build_query queryId capabilities metadata timestamp text].
  repeat split; try apply js_or_empty; apply truthy_js_or_r; cbn [truthy];
    try reflexivity; now rewrite ?Hu, ?Hd.
Qed.

Lemma build_query_fields_defined_witness :
  crypto_randomUUID env0 <> EmptyString
  /\ Date_toISOString env0 <> EmptyString
  /\ truthy (queryId (build_query env0 (JArr []))) = true
  /\ truthy (capabilities (build_query env0 (JArr []))) = true
  /\ truthy (metadata (build_query env0 (JArr []))) = true
  /\ truthy (timestamp (build_query env0 (JArr []))) = true
  /\ (truthy (text (build_query env0 (JArr []))) = true
      \/ text (build_query env0 (JArr [])) = JStr EmptyString).
Proof.
  split; [vm_compute; discriminate|]. split; [vm_compute; discriminate|].
  apply (build_query_fields_defined env0 (JArr [])); vm_compute; discriminate.
Defined.

(** X13.  An array given as [capabilities] is passed on as it is, the empty
    array too ([[]] is truthy), and [capabilities_needed] is then not
    looked at. *)
Theorem capabilities_array_is_kept (env : Env) (b : JsVal) (l : list JsVal) :
  get_prop b "capabilities" = JArr l ->
  capabilities (build_query env b) = JArr l.
Proof.
  intro H. cbn [build_query capabilities]. rewrite H. reflexivity.
Qed.

Lemma capabilities_array_is_kept_witness :
  get_prop (JObj [("capabilities", JArr []);
                  ("capabilities_needed", JArr [JStr "search"])]) "capabilities"
  = JArr []
  /\ capabilities (build_query env0
       (JObj [("capabilities", JArr []);
              ("capabilities_needed", JArr [JStr "search"])]))
     = JArr [].
Proof.
  split; [reflexivity|].
  apply (capabilities_array_is_kept env0
           (JObj [("capabilities", JArr []);
                  ("capabilities_needed", JArr [JStr "search"])]) []).
  reflexivity.
Defined.

(** X14.  A body none of whose known fields holds a truthy value (the empty
    object, any array, fields set to [null] or to the empty string) gives
    the default query: a fresh identifier, the empty text, no capability,
    empty metadata, the current date. *)
Theorem build_query_defaults (env : Env) (b : JsVal) :
  no_usable_field b = true ->
  build_query env b
  = mkQuery (JStr (crypto_randomUUID env)) (JStr EmptyString) (JArr []) (JObj [])
            (JStr (Date_toISOString env)).
Proof.
  unfold no_usable_field, query_fields. cbn [forallb].
  rewrite !andb_true_iff, !negb_true_iff.
  intros (H1 & H2 & H3 & H4 & H5 & H6 & H7 & H8 & H9 & _).
  unfold build_query, js_or.
  repeat (rewrite ?H1, ?H2, ?H3, ?H4, ?H5, ?H6, ?H7, ?H8, ?H9; cbv iota).
  reflexivity.
Qed.

Lemma build_query_defaults_witness :
  no_usable_field (JObj [("query", JNull); ("text", JStr EmptyString); ("note", JNum 1)])
  = true
  /\ build_query env0
       (JObj [("query", JNull); ("text", JStr EmptyString); ("note", JNum 1)])
     = mkQuery (JStr (crypto_randomUUID env0)) (JStr EmptyString) (JArr []) (JObj [])
               (JStr (Date_toISOString env0)).
Proof.
  split; [reflexivity|].
  apply (build_query_defaults env0
           (JObj [("query", JNull); ("text", JStr EmptyString); ("note", JNum 1)])).
  reflexivity.
Defined.

(* ================================================================== *)
(** ** The defaults of the constructor *)


(** A port other than 0 and a URL other than the empty string are kept. *)
Theorem fill_config_keeps (c : MTAgentConfig) (n : Z) (u : string) :
  config_port c = Some n -> n <> 0 ->
  config_marketplaceUrl c = Some u -> u <> EmptyString ->
  required_port (fill_config c) = n
  /\ required_marketplaceUrl (fill_config c) = u.
Proof.
  intros Hp Hn Hu He. cbn [fill_config required_port required_marketplaceUrl].
  rewrite Hp, Hu. apply Z.eqb_neq in Hn. apply String.eqb_neq in He.
  now rewrite Hn, He.
Qed.

Lemma fill_config_keeps_witness :
  config_port (mkConfig "mt_key" "s1" (Some 8080) (Some "http://localhost:4000")) = Some 8080
  /\ 8080 <> 0
  /\ config_marketplaceUrl (mkConfig "mt_key" "s1" (Some 8080) (Some "http://localhost:4000"))
     = Some "http://localhost:4000"
  /\ "http://localhost:4000" <> EmptyString
  /\ required_port
       (fill_config (mkConfig "mt_key" "s1" (Some 8080) (Some "http://localhost:4000")))
     = 8080
  /\ required_marketplaceUrl
       (fill_config (mkConfig "mt_key" "s1" (Some 8080) (Some "http://localhost:4000")))
     = "http://localhost:4000".
Proof.
  split; [reflexivity|]. split; [lia|]. split; [reflexivity|]. split; [discriminate|].
  apply (fill_config_keeps (mkConfig "mt_key" "s1" (Some 8080) (Some "http://localhost:4000"))
           8080 "http://localhost:4000"); try reflexivity; [lia | discriminate].
Defined.

(* ================================================================== *)
(** ** The marketplace client *)

Section ClientFacts.

Variable parse : string -> option JsVal.

Lemma on_end_error_status (res : Client.HttpResponse) (n : Z) :
  Client.statusCode res = Some n ->
  400 <= n ->
  exists m, Client.on_end parse res = Client.Rejected (Client.ErrorObj m).
Proof.
  intros Hs Hge. unfold Client.on_end.
  destruct (parse (Client.data res)) as [json|]; [|eauto].
  unfold Client.is_error_status. rewrite Hs.
  assert (E : negb (n =? 0) && (400 <=? n) = true).
  { apply andb_true_iff. split; [apply negb_true_iff, Z.eqb_neq; lia | apply Z.leb_le; lia]. }
  rewrite E. destruct (read_prop json "error"); eauto.
Qed.

(** X16.  An answer with status 400 or more never resolves the promise of
    [request]: it is rejected with an [Error], whatever the body. *)
Theorem request_error_status_rejects
  (net : Client.Network) (method path : string) (res : Client.HttpResponse) (n : Z) :
  net method path = Client.Answered res ->
  Client.statusCode res = Some n ->
  400 <= n ->
  exists m, Client.request parse net method path = Client.Rejected (Client.ErrorObj m).
Proof.
  intros Hn Hs Hge. unfold Client.request. rewrite Hn.
  now apply (on_end_error_status res n).
Qed.

(** With a status below 400 (or none) and a body that parses, [request]
    resolves with the parsed value, unchanged. *)
Theorem request_ok_resolves
  (net : Client.Network) (method path : string) (res : Client.HttpResponse) (json : JsVal) :
  net method path = Client.Answered res ->
  Client.is_error_status (Client.statusCode res) = false ->
  parse (Client.data res) = Some json ->
  Client.request parse net method path = Client.Resolved json.
Proof.
  intros Hn Hs Hp. unfold Client.request, Client.on_end.
  now rewrite Hn, Hp, Hs.
Qed.

(** X17.  A body that does not parse rejects with [Invalid JSON response: ]
    followed by the text received, whatever the status: an error status
    with a body that is not JSON is not reported as [HTTP n]. *)
Theorem request_unparsable_rejects
  (net : Client.Network) (method path : string) (res : Client.HttpResponse) :
  net method path = Client.Answered res ->
  parse (Client.data res) = None ->
  Client.request parse net method path
  = Client.Rejected (Client.ErrorObj ("Invalid JSON response: " ++ Client.data res)%string).
Proof.
  intros Hn Hp. unfold Client.request, Client.on_end. now rewrite Hn, Hp.
Qed.


(** X19.  An error status whose body is the JSON text [null] is reported as
    invalid JSON: reading [json.error] throws inside the [try]. *)
Theorem request_error_null_body
  (net : Client.Network) (method path : string) (res : Client.HttpResponse) (n : Z) :
  net method path = Client.Answered res ->
  Client.statusCode res = Some n ->
  400 <= n ->
  parse (Client.data res) = Some JNull ->
  Client.request parse net method path
  = Client.Rejected (Client.ErrorObj ("Invalid JSON response: " ++ Client.data res)%string).
Proof.
  intros Hn Hs Hge Hp. unfold Client.request, Client.on_end.
  rewrite Hn, Hp. unfold Client.is_error_status. rewrite Hs.
  assert (E : negb (n =? 0) && (400 <=? n) = true).
  { apply andb_true_iff. split; [apply negb_true_iff, Z.eqb_neq; lia | apply Z.leb_le; lia]. }
  now rewrite E.
Qed.

Lemma read_prop_defined (d : JsVal) (k : string) :
  d <> JNull -> d <> JUndefined -> read_prop d k = Returns (get_prop d k).
Proof. intros Hn Hu. destruct d; try reflexivity; contradiction. Qed.



(** X21.  A success answer whose body is the JSON text [null] makes [getStats]
    reject with a [TypeError]: the defaults do not cover it. *)
Theorem getStats_null_answer (net : Client.Network) (uuid : string) :
  Client.request parse net "GET" ("/agents/" ++ uuid ++ "/stats")%string
  = Client.Resolved JNull ->
  Client.getStats parse net uuid
  = Client.Rejected (Client.Thrown
      (TypeError "Cannot read properties of null (reading 'total_queries')")).
Proof. intro Hr. unfold Client.getStats. now rewrite Hr. Qed.


(** X23.  [listAgents] never resolves with [undefined], [null] or another falsy
    value: it gives the answer's [agents] field when truthy, else the
    answer itself when truthy, else the empty array. *)
Theorem listAgents_truthy (net : Client.Network) (d : JsVal) :
  Client.request parse net "GET" "/agents" = Client.Resolved d ->
  d <> JNull -> d <> JUndefined ->
  exists v,
    Client.listAgents parse net = Client.Resolved v
    /\ truthy v = true
    /\ v = first_truthy [get_prop d "agents"; d] (JArr []).
Proof.
  intros Hr Hn Hu. unfold Client.listAgents. rewrite Hr.
  cbn [Client.then_]. rewrite read_prop_defined by assumption.
  cbn [bind Client.settle]. eexists. split; [reflexivity|]. split.
  - now apply truthy_js_or_r.
  - cbn [first_truthy]. unfold js_or.
    destruct (truthy (get_prop d "agents")) eqn:E; cbv iota; rewrite ?E; reflexivity.
Qed.

(** An answer that is itself an array, the empty one included, is what
    [listAgents] resolves with. *)
Theorem listAgents_array (net : Client.Network) (l : list JsVal) :
  Client.request parse net "GET" "/agents" = Client.Resolved (JArr l) ->
  Client.listAgents parse net = Client.Resolved (JArr l).
Proof. intro Hr. unfold Client.listAgents. now rewrite Hr. Qed.

(** X24.  No method of the client resolves on an error status: each one rejects
    with the [Error] of [request], and none applies its defaults. *)
Theorem client_methods_reject_on_error_status
  (res : Client.HttpResponse) (n : Z) (uuid : string) :
  Client.statusCode res = Some n ->
  400 <= n ->
  exists m,
    Client.getHealth parse (Client.always res) = Client.Rejected (Client.ErrorObj m)
    /\ Client.getStats parse (Client.always res) uuid = Client.Rejected (Client.ErrorObj m)
    /\ Client.getReputation parse (Client.always res) uuid
       = Client.Rejected (Client.ErrorObj m)
    /\ Client.listAgents parse (Client.always res) = Client.Rejected (Client.ErrorObj m)
    /\ Client.getDashboard parse (Client.always res) = Client.Rejected (Client.ErrorObj m).
Proof.
  intros Hs Hge.
  destruct (on_end_error_status res n Hs Hge) as [m Hm].
  exists m.
  assert (A : forall path, Client.request parse (Client.always res) "GET" path
                           = Client.Rejected (Client.ErrorObj m)) by (intro; exact Hm).
  unfold Client.getHealth, Client.getStats, Client.getReputation, Client.listAgents,
    Client.getDashboard.
  rewrite !A. now repeat split.
Qed.

(** A transport failure rejects with the very value the request emitted. *)
Theorem request_transport_failure
  (net : Client.Network) (method path : string) (err : JsVal) :
  net method path = Client.Failed err ->
  Client.request parse net method path = Client.Rejected (Client.Emitted err).
Proof. intro Hn. unfold Client.request. now rewrite Hn. Qed.

End ClientFacts.

(* ================================================================== *)
(** ** The client's facts at sample answers *)

Lemma request_error_status_rejects_witness :
  Client.always res_404 "GET" "/agents" = Client.Answered res_404
  /\ Client.statusCode res_404 = Some 404
  /\ 400 <= 404
  /\ exists m, Client.request JSON_parse (Client.always res_404) "GET" "/agents"
               = Client.Rejected (Client.ErrorObj m).
Proof.
  split; [reflexivity|]. split; [reflexivity|]. split; [lia|].
  apply (request_error_status_rejects JSON_parse (Client.always res_404)
           "GET" "/agents" res_404 404); [reflexivity | reflexivity | lia].
Defined.

Lemma request_unparsable_rejects_witness :
  Client.always res_502_html "GET" "/health" = Client.Answered res_502_html
  /\ JSON_parse (Client.data res_502_html) = None
  /\ Client.request JSON_parse (Client.always res_502_html) "GET" "/health"
     = Client.Rejected
         (Client.ErrorObj "Invalid JSON response: <html>Bad Gateway</html>").
Proof.
  split; [reflexivity|]. split; [vm_compute; reflexivity|].
  apply (request_unparsable_rejects JSON_parse (Client.always res_502_html)
           "GET" "/health" res_502_html); [reflexivity | vm_compute; reflexivity].
Defined.


Lemma request_error_null_body_witness :
  Client.always res_500_null "GET" "/agents" = Client.Answered res_500_null
  /\ Client.statusCode res_500_null = Some 500
  /\ 400 <= 500
  /\ JSON_parse (Client.data res_500_null) = Some JNull
  /\ Client.request JSON_parse (Client.always res_500_null) "GET" "/agents"
     = Client.Rejected (Client.ErrorObj "Invalid JSON response: null").
Proof.
  split; [reflexivity|]. split; [reflexivity|]. split; [lia|].
  split; [vm_compute; reflexivity|].
  apply (request_error_null_body JSON_parse (Client.always res_500_null) "GET" "/agents"
           res_500_null 500); [reflexivity | reflexivity | lia | vm_compute; reflexivity].
Defined.


Lemma getStats_null_answer_witness :
  Client.request JSON_parse (Client.always res_200_null) "GET" "/agents/a-1/stats"
  = Client.Resolved JNull
  /\ Client.getStats JSON_parse (Client.always res_200_null) "a-1"
     = Client.Rejected (Client.Thrown
         (TypeError "Cannot read properties of null (reading 'total_queries')")).
Proof.
  split; [vm_compute; reflexivity|].
  apply (getStats_null_answer JSON_parse (Client.always res_200_null) "a-1").
  vm_compute; reflexivity.
Defined.


Lemma listAgents_truthy_witness :
  Client.request JSON_parse (Client.always res_zero) "GET" "/agents"
  = Client.Resolved (JNum 0)
  /\ JNum 0 <> JNull
  /\ JNum 0 <> JUndefined
  /\ exists v,
       Client.listAgents JSON_parse (Client.always res_zero) = Client.Resolved v
       /\ truthy v = true
       /\ v = JArr [].
Proof.
  split; [vm_compute; reflexivity|]. split; [discriminate|]. split; [discriminate|].
  apply (listAgents_truthy JSON_parse (Client.always res_zero) (JNum 0));
    [vm_compute; reflexivity | discriminate | discriminate].
Defined.

Lemma client_methods_reject_on_error_status_witness :
  Client.statusCode res_404 = Some 404
  /\ 400 <= 404
  /\ exists m,
       Client.getHealth JSON_parse (Client.always res_404)
       = Client.Rejected (Client.ErrorObj m)
       /\ Client.getStats JSON_parse (Client.always res_404) "a-1"
          = Client.Rejected (Client.ErrorObj m)
       /\ Client.getReputation JSON_parse (Client.always res_404) "a-1"
          = Client.Rejected (Client.ErrorObj m)
       /\ Client.listAgents JSON_parse (Client.always res_404)
          = Client.Rejected (Client.ErrorObj m)
       /\ Client.getDashboard JSON_parse (Client.always res_404)
          = Client.Rejected (Client.ErrorObj m).
Proof.
  split; [reflexivity|]. split; [lia|].
  apply (client_methods_reject_on_error_status JSON_parse res_404 404 "a-1");
    [reflexivity | lia].
Defined.
